(** * erddapy.core.interfaces: URL responses handed to third-party libraries

    A shallow embedding of [src/erddapy/core/interfaces.py].  The module is
    glue: each of its four functions marshals its arguments, calls one or more
    collaborators and returns what they return.  What can be verified about it
    is therefore *which* collaborator is called, *with what* arguments, in
    *what order*, and how exceptions travel.  The embedding keeps exactly this:

    - Python values that the module inspects (keyword dictionaries, [None],
      strings) are data; a [**kw] dictionary is a [gmap string pyval];
    - the collaborators ([urlopen], [_nc_dataset], [pd.read_csv],
      [xr.open_dataset], [xr.backends.NetCDF4DataStore], [iris.load_raw] and
      the [data] property of a cube) are the fields of the class [Libraries]:
      arbitrary functions that may return or raise and may change the state of
      the outside world (servers, network, library caches);
    - a computation is a function from worlds to an outcome and a world; the
      world carries the outside state, the files on disk, and the log of
      collaborator calls made so far;
    - the two local [import] statements are name resolution: the optional
      dependencies are taken to be installed. *)

From stdpp Require Import gmap strings list infinite.
From Stdlib Require Import Strings.Byte.

Set Warnings "-register-all".
Open Scope string_scope.
Open Scope list_scope.

(** ** Python data *)

(** The values that travel in keyword dictionaries. *)
Inductive pyval :=
| PyNone
| PyBool (b : bool)
| PyInt (z : Z)
| PyStr (s : string)
| PyTuple (items : list pyval).

(** The content of a binary stream (what [urlopen] hands back). *)
Definition BinaryIO := list byte.

(** ** Exceptions *)

(** The classes the module names or that the interpreter raises on its behalf,
    an open-ended family for what libraries raise, and the two usual classes
    that derive from [BaseException] without deriving from [Exception]. *)
Inductive exn_class :=
| ValueError
| TypeError
| OSError
| LibraryError (name : string)
| KeyboardInterrupt
| SystemExit.

(** An exception object: class, message and [__cause__]. *)
Inductive exn :=
| Exn (cls : exn_class) (msg : string) (cause : option exn).

Definition exn_cls (e : exn) : exn_class := let 'Exn c _ _ := e in c.
Definition exn_msg (e : exn) : string := let 'Exn _ m _ := e in m.
Definition exn_cause (e : exn) : option exn := let 'Exn _ _ c := e in c.

(** [isinstance(e, Exception)]. *)
Definition is_Exception (e : exn) : bool :=
  match exn_cls e with
  | KeyboardInterrupt | SystemExit => false
  | _ => true
  end.

Inductive outcome (A : Type) :=
| Returns (a : A)
| Raises (e : exn).
Arguments Returns {A} a.
Arguments Raises {A} e.

(** ** Collaborators *)

(** Everything the module calls and does not define.  [urlopen] and
    [_nc_dataset] belong to erddapy ([erddapy.core.url], [erddapy.core.netcdf])
    but not to this file; the others are pandas, xarray and iris.  The readers
    of files ([iris_load_raw], [cube_data]) see the files on disk. *)
Class Libraries := {
  ext : Type;
  DataFrame : Type;
  NcDataset : Type;
  DataStore : Type;
  XrDataset : Type;
  Cube : Type;
  Payload : Type;
  urlopen : string → gmap string pyval → ext → outcome BinaryIO * ext;
  pd_read_csv : BinaryIO → gmap string pyval → ext → outcome DataFrame * ext;
  _nc_dataset : string → pyval → gmap string pyval → ext → outcome NcDataset * ext;
  xr_NetCDF4DataStore : NcDataset → ext → outcome DataStore * ext;
  xr_open_dataset : string + DataStore → gmap string pyval → ext → outcome XrDataset * ext;
  iris_load_raw : gmap string BinaryIO → string → gmap string pyval → ext → outcome (list Cube) * ext;
  cube_data : gmap string BinaryIO → Cube → ext → outcome Payload * ext
}.

Section Interfaces.
Context {L : Libraries}.

(** ** Worlds and computations *)

(** One entry per collaborator call, with the arguments of the call, and one
    per temporary file created or removed. *)
Inductive event :=
| call_urlopen (url : string) (kw : gmap string pyval)
| call_read_csv (data : BinaryIO) (kw : gmap string pyval)
| call_nc_dataset (url : string) (auth : pyval) (kw : gmap string pyval)
| call_NetCDF4DataStore (nc : NcDataset)
| call_open_dataset (src : string + DataStore) (kw : gmap string pyval)
| call_load_raw (path : string) (kw : gmap string pyval)
| read_cube_data (c : Cube)
| tempnc_created (path : string)
| tempnc_deleted (path : string).

Record world := World {
  outside : ext;
  files : gmap string BinaryIO;
  log : list event
}.

Definition M (A : Type) : Type := world → outcome A * world.

Definition ret {A} (a : A) : M A := λ w, (Returns a, w).

Definition raise {A} (e : exn) : M A := λ w, (Raises e, w).

Definition bind {A B} (m : M A) (k : A → M B) : M B :=
  λ w, match m w with
       | (Returns a, w') => k a w'
       | (Raises e, w') => (Raises e, w')
       end.

Notation "'let*' x ':=' m 'in' k" := (bind m (λ x, k))
  (at level 10, x name, m at level 100, k at level 200).

(** [try: body  except Exception as e: handler e]. *)
Definition try_except_Exception {A} (body : M A) (handler : exn → M A) : M A :=
  λ w, match body w with
       | (Returns a, w') => (Returns a, w')
       | (Raises e, w') =>
           if is_Exception e then handler e w' else (Raises e, w')
       end.

(** A collaborator call: run it on the outside state and log it. *)
Definition invoke {A} (ev : event) (f : ext → outcome A * ext) : M A :=
  λ w, let '(r, o) := f (outside w) in
       (r, {| outside := o; files := files w; log := log w ++ [ev] |}).

(** The same for a collaborator that reads files. *)
Definition invoke_reading {A} (ev : event)
    (f : gmap string BinaryIO → ext → outcome A * ext) : M A :=
  λ w, invoke ev (f (files w)) w.

(** A context manager: what [with cm as x: body] needs of it. *)
Record scoped (A : Type) := Scoped {
  acquire : M A;
  release : A → world → world
}.
Arguments acquire {A} s.
Arguments release {A} s.

(** [with cm as x: body x].  The release runs on every way out of the body. *)
Definition with_as {A B} (cm : scoped A) (body : A → M B) : M B :=
  λ w, match acquire cm w with
       | (Returns x, w1) =>
           let '(r, w2) := body x w1 in (r, release cm x w2)
       | (Raises e, w1) => (Raises e, w1)
       end.

(** [d.pop(key, None)]: the value taken out, and the dictionary left. *)
Definition pop_default_None (key : string) (d : gmap string pyval)
    : pyval * gmap string pyval :=
  (default PyNone (d !! key), delete key d).

(** [f(..., key=v, **d)]: the interpreter refuses, before [f] is entered, a
    dictionary that repeats a keyword given explicitly. *)
Definition keyword_with_dict (fname key : string) (d : gmap string pyval) : M unit :=
  match d !! key with
  | None => ret tt
  | Some _ =>
      raise (Exn TypeError
               (fname +:+ "() got multiple values for keyword argument '"
                      +:+ key +:+ "'") None)
  end.

(** Modelled from the spec: [_tempnc] of [erddapy.core.netcdf] is not part of
    the sources at hand.  "A scoped-temporary-file capability: given byte
    content, yields a filesystem path valid for the duration of a scoped
    block, deleted afterward."  The path is one no file has yet. *)
Definition _tempnc (data : BinaryIO) : scoped string := {|
  acquire := λ w,
    let tmp := fresh (dom (files w)) in
    (Returns tmp,
     {| outside := outside w;
        files := <[tmp := data]> (files w);
        log := log w ++ [tempnc_created tmp] |});
  release := λ tmp w,
    {| outside := outside w;
       files := delete tmp (files w);
       log := log w ++ [tempnc_deleted tmp] |}
|}.

(** ** The four functions *)

Definition read_csv_message (url : string) : string :=
  "Could not read url " +:+ url +:+ " with Pandas.read_csv.".

Definition to_pandas (url : string) (requests_kwargs : option (gmap string pyval))
    (kw : gmap string pyval) : M DataFrame :=
  let requests_kwargs := default ∅ requests_kwargs in
  let* data := invoke (call_urlopen url requests_kwargs)
                      (urlopen url requests_kwargs) in
  try_except_Exception
    (invoke (call_read_csv data kw) (pd_read_csv data kw))
    (λ e, raise (Exn ValueError (read_csv_message url) (Some e))).

Definition griddap_message (url : string) : string :=
  "Cannot use .ncCF with griddap protocol. The URL you tried to access is: '"
    +:+ url +:+ "'.".

Definition to_ncCF (url : string) (protocol : option string)
    (kw : gmap string pyval) : M NcDataset :=
  if decide (protocol = Some "griddap") then
    raise (Exn ValueError (griddap_message url) None)
  else
    let '(auth, kw) := pop_default_None "auth" kw in
    invoke (call_nc_dataset url auth kw) (_nc_dataset url auth kw).

Definition to_xarray (url : string) (response : string)
    (requests_kwargs : option (gmap string pyval)) (kw : gmap string pyval)
    : M XrDataset :=
  let '(auth, kw) := pop_default_None "auth" kw in
  if decide (response = "opendap") then
    invoke (call_open_dataset (inl url) kw) (xr_open_dataset (inl url) kw)
  else
    let requests_kwargs := default ∅ requests_kwargs in
    let* nc := (let* _ := keyword_with_dict "_nc_dataset" "auth" requests_kwargs in
                invoke (call_nc_dataset url auth requests_kwargs)
                       (_nc_dataset url auth requests_kwargs)) in
    let* store := invoke (call_NetCDF4DataStore nc) (xr_NetCDF4DataStore nc) in
    invoke (call_open_dataset (inr store) kw) (xr_open_dataset (inr store) kw).

(** [[cube.data for cube in cubes]]. *)
Fixpoint materialize (cubes : list Cube) : M (list Payload) :=
  match cubes with
  | [] => ret []
  | cube :: rest =>
      let* d := invoke_reading (read_cube_data cube) (λ fs, cube_data fs cube) in
      let* ds := materialize rest in
      ret (d :: ds)
  end.

Definition to_iris (url : string) (requests_kwargs : option (gmap string pyval))
    (kw : gmap string pyval) : M (list Cube) :=
  let requests_kwargs := default ∅ requests_kwargs in
  let* data := invoke (call_urlopen url requests_kwargs)
                      (urlopen url requests_kwargs) in
  with_as (_tempnc data) (λ tmp,
    let* cubes := invoke_reading (call_load_raw tmp kw)
                                 (λ fs, iris_load_raw fs tmp kw) in
    let* _ := materialize cubes in
    ret cubes).

(** ** Reading logs and messages *)

(** The message [msg] has [url] in it, character for character. *)
Definition mentions (msg url : string) : Prop :=
  ∃ pre post, msg = pre +:+ url +:+ post.

(** The URL a call was given, for the calls that take one. *)
Definition event_url (ev : event) : option string :=
  match ev with
  | call_urlopen url _ => Some url
  | call_nc_dataset url _ _ => Some url
  | call_open_dataset (inl url) _ => Some url
  | _ => None
  end.

Definition only_url (url : string) (ev : event) : Prop :=
  match event_url ev with
  | Some u => u = url
  | None => True
  end.

(** The calls that bring bytes over the network on behalf of this module:
    [urlopen], and [_nc_dataset], which fetches before it builds. *)
Definition is_fetch (ev : event) : bool :=
  match ev with
  | call_urlopen _ _ | call_nc_dataset _ _ _ => true
  | _ => false
  end.

(** The temporary files a log says were created. *)
Definition created_paths (evs : list event) : list string :=
  omap (λ ev, match ev with tempnc_created p => Some p | _ => None end) evs.

(** A run of [m] from [w] adds the events [evs] to the log. *)
Definition emits {A} (m : M A) (w : world) (evs : list event) : Prop :=
  log (m w).2 = log w ++ evs.

(** Every run of [m] adds to the log only events that satisfy [P]. *)
Definition emits_only (P : event → Prop) {A} (m : M A) : Prop :=
  ∀ w, ∃ evs, emits m w evs ∧ Forall P evs.

End Interfaces.

Arguments acquire {L A} s.
Arguments release {L A} s.

Notation "'let*' x ':=' m 'in' k" := (bind m (λ x, k))
  (at level 10, x name, m at level 100, k at level 200).

(** ** A small instance

    One server, whose state is the number of requests it has answered.  The
    empty URL is unreachable, one URL has an empty body, every other URL has
    the body [t,x].  An empty body does not parse as a table, and a dataset
    fetched with a timeout of zero times out. *)

Definition demo_body : BinaryIO := [x74; x2c; x78].

Definition demo : Libraries := {|
  ext := nat;
  DataFrame := BinaryIO;
  NcDataset := string * pyval;
  DataStore := string * pyval;
  XrDataset := string + string * pyval;
  Cube := BinaryIO;
  Payload := nat;
  urlopen := λ url kw n,
    if decide (url = "") then (Raises (Exn OSError "unreachable" None), n)
    else if decide (url = "http://erddap/empty.csv") then (Returns [], S n)
    else (Returns demo_body, S n);
  pd_read_csv := λ data kw n,
    match data with
    | [] => (Raises (Exn (LibraryError "EmptyDataError")
                         "No columns to parse from file" None), n)
    | _ => (Returns data, n)
    end;
  _nc_dataset := λ url auth kw n,
    match kw !! "timeout" with
    | Some (PyInt 0) => (Raises (Exn OSError "timed out" None), S n)
    | _ => (Returns (url, auth), S n)
    end;
  xr_NetCDF4DataStore := λ nc n, (Returns nc, n);
  xr_open_dataset := λ src kw n, (Returns src, n);
  iris_load_raw := λ fs path kw n,
    match fs !! path with
    | Some data => (Returns [data; data], n)
    | None => (Raises (Exn OSError "no such file" None), n)
    end;
  cube_data := λ fs c n, (Returns (length c), n)
|}.

Definition demo_world : @world demo := @World demo 0%nat ∅ [].

Definition demo_url : string := "http://erddap/tabledap/x.nc".

Definition demo_auth : pyval := PyTuple [PyStr "user"; PyStr "secret"].

Definition demo_cube : @Cube demo := demo_body.

(** ** Counting the fetches

    [counting L] is [L] with a counter beside its outside state.  [urlopen]
    and [_nc_dataset] behave as in [L] and advance the counter by one each
    time they run; the other collaborators behave as in [L] and leave it.
    After a run, the counter has advanced by the number of times the run
    really fetched. *)

Definition counting (L : Libraries) : Libraries := {|
  ext := (@ext L * nat)%type;
  DataFrame := @DataFrame L;
  NcDataset := @NcDataset L;
  DataStore := @DataStore L;
  XrDataset := @XrDataset L;
  Cube := @Cube L;
  Payload := @Payload L;
  urlopen := λ url kw s,
    ((@urlopen L url kw s.1).1, ((@urlopen L url kw s.1).2, S s.2));
  pd_read_csv := λ data kw s,
    ((@pd_read_csv L data kw s.1).1, ((@pd_read_csv L data kw s.1).2, s.2));
  _nc_dataset := λ url auth kw s,
    ((@_nc_dataset L url auth kw s.1).1,
     ((@_nc_dataset L url auth kw s.1).2, S s.2));
  xr_NetCDF4DataStore := λ nc s,
    ((@xr_NetCDF4DataStore L nc s.1).1, ((@xr_NetCDF4DataStore L nc s.1).2, s.2));
  xr_open_dataset := λ src kw s,
    ((@xr_open_dataset L src kw s.1).1, ((@xr_open_dataset L src kw s.1).2, s.2));
  iris_load_raw := λ fs path kw s,
    ((@iris_load_raw L fs path kw s.1).1,
     ((@iris_load_raw L fs path kw s.1).2, s.2));
  cube_data := λ fs c s,
    ((@cube_data L fs c s.1).1, ((@cube_data L fs c s.1).2, s.2))
|}.

(** The number of fetches run so far. *)
Definition fetches_run {L : Libraries} (w : @world (counting L)) : nat :=
  (outside w).2.

(** ** An instance with faults

    The same server, always reachable, and one thing that goes wrong: the
    user interrupts the parsing, the dataset fetch is refused, the data store
    rejects the dataset, the cubes do not load, or the lazy data of an empty
    cube cannot be read.  A loaded file gives three cubes, the second one
    empty. *)

Inductive fault :=
| parse_interrupted
| fetch_refused
| store_rejected
| load_failed
| read_truncated.

Definition faulty (f : fault) : Libraries := {|
  ext := nat;
  DataFrame := BinaryIO;
  NcDataset := string * pyval;
  DataStore := string * pyval;
  XrDataset := string + string * pyval;
  Cube := BinaryIO;
  Payload := nat;
  urlopen := λ url kw n, (Returns demo_body, S n);
  pd_read_csv := λ data kw n,
    match f with
    | parse_interrupted => (Raises (Exn KeyboardInterrupt "" None), n)
    | _ => (Returns data, n)
    end;
  _nc_dataset := λ url auth kw n,
    match f with
    | fetch_refused => (Raises (Exn OSError "connection refused" None), S n)
    | _ => (Returns (url, auth), S n)
    end;
  xr_NetCDF4DataStore := λ nc n,
    match f with
    | store_rejected => (Raises (Exn ValueError "not a netCDF4 dataset" None), n)
    | _ => (Returns nc, n)
    end;
  xr_open_dataset := λ src kw n, (Returns src, n);
  iris_load_raw := λ fs path kw n,
    match f, fs !! path with
    | load_failed, _ =>
        (Raises (Exn (LibraryError "TranslationError") "no cubes" None), n)
    | _, Some data => (Returns [data; []; data], n)
    | _, None => (Raises (Exn OSError "no such file" None), n)
    end;
  cube_data := λ fs c n,
    match f, c with
    | read_truncated, [] => (Raises (Exn OSError "truncated file" None), n)
    | _, _ => (Returns (length c), n)
    end
|}.

Definition faulty_world (f : fault) : @world (faulty f) :=
  @World (faulty f) 0%nat ∅ [].

Definition demo_frame : @DataFrame demo := demo_body.

Definition demo_nc : @NcDataset demo := (demo_url, demo_auth).

Definition demo_store : @DataStore demo := (demo_url, demo_auth).

Definition demo_open_nc : @NcDataset demo := (demo_url, PyNone).

Definition demo_open_store : @DataStore demo := (demo_url, PyNone).

Definition faulty_nc (f : fault) : @NcDataset (faulty f) := (demo_url, PyNone).

Definition faulty_cube (f : fault) (data : BinaryIO) : @Cube (faulty f) := data.


(** ** Properties *)

Section Properties.
Context {L : Libraries}.

Implicit Types (url response path : string) (kw : gmap string pyval).
Implicit Types (rk : option (gmap string pyval)) (w : world) (e : exn).

Lemma invoke_eq {A} (ev : event) (f : ext → outcome A * ext) w :
  invoke ev f w =
    ((f (outside w)).1,
     {| outside := (f (outside w)).2; files := files w; log := log w ++ [ev] |}).
Proof. unfold invoke. by destruct (f (outside w)). Qed.

Lemma invoke_returns {A} (ev : event) (f : ext → outcome A * ext) w a o :
  f (outside w) = (Returns a, o) →
  invoke ev f w =
    (Returns a, {| outside := o; files := files w; log := log w ++ [ev] |}).
Proof. intros H. by rewrite invoke_eq, H. Qed.

Lemma invoke_raises {A} (ev : event) (f : ext → outcome A * ext) w e o :
  f (outside w) = (Raises e, o) →
  invoke ev f w =
    (Raises e, {| outside := o; files := files w; log := log w ++ [ev] |}).
Proof. intros H. by rewrite invoke_eq, H. Qed.

Lemma mentions_between (pre url post : string) : mentions (pre +:+ url +:+ post) url.
Proof. by exists pre, post. Qed.

Lemma read_csv_message_mentions url : mentions (read_csv_message url) url.
Proof. apply mentions_between. Qed.

Lemma griddap_message_mentions url : mentions (griddap_message url) url.
Proof. apply mentions_between. Qed.

(** *** [to_ncCF] *)

Lemma to_ncCF_griddap url kw w :
  to_ncCF url (Some "griddap") kw w =
    (Raises (Exn ValueError (griddap_message url) None), w).
Proof. reflexivity. Qed.

Lemma to_ncCF_other url protocol kw w :
  protocol ≠ Some "griddap" →
  to_ncCF url protocol kw w =
    invoke (call_nc_dataset url (default PyNone (kw !! "auth")) (delete "auth" kw))
           (_nc_dataset url (default PyNone (kw !! "auth")) (delete "auth" kw)) w.
Proof. intros H. unfold to_ncCF. by rewrite decide_False. Qed.

(** C1.  With the protocol ["griddap"], [to_ncCF] raises a [ValueError] whose
    message has the URL in it, and it does so before anything is called: the
    world it leaves is the world it found, log and outside state included.
    With any other protocol, [None] among them, the guard does not fire: the
    call is exactly one call of [_nc_dataset] on the URL, and its outcome is
    that collaborator's. *)
Theorem to_ncCF_rejects_griddap_only url (protocol : option string) kw w :
  (protocol = Some "griddap" →
     to_ncCF url protocol kw w =
       (Raises (Exn ValueError (griddap_message url) None), w)
     ∧ mentions (griddap_message url) url)
  ∧ (protocol ≠ Some "griddap" →
     let auth := default PyNone (kw !! "auth") in
     let kw' := delete "auth" kw in
     to_ncCF url protocol kw w =
       ((_nc_dataset url auth kw' (outside w)).1,
        {| outside := (_nc_dataset url auth kw' (outside w)).2;
           files := files w;
           log := log w ++ [call_nc_dataset url auth kw'] |})).
Proof.
  split.
  - intros ->. split; [apply to_ncCF_griddap | apply griddap_message_mentions].
  - intros H. cbv zeta. by rewrite to_ncCF_other, invoke_eq.
Qed.

(** *** [to_pandas] *)

(** What [to_pandas] does, case by case. *)
Lemma to_pandas_cases url rk kw w :
  to_pandas url rk kw w =
    let rk' := default ∅ rk in
    match urlopen url rk' (outside w) with
    | (Raises e, o) =>
        (Raises e,
         {| outside := o; files := files w;
            log := log w ++ [call_urlopen url rk'] |})
    | (Returns data, o) =>
        let w' o' :=
          {| outside := o'; files := files w;
             log := log w ++ [call_urlopen url rk'; call_read_csv data kw] |} in
        match pd_read_csv data kw o with
        | (Returns df, o') => (Returns df, w' o')
        | (Raises e, o') =>
            if is_Exception e
            then (Raises (Exn ValueError (read_csv_message url) (Some e)), w' o')
            else (Raises e, w' o')
        end
    end.
Proof.
  unfold to_pandas, bind, try_except_Exception, raise. cbv zeta.
  rewrite invoke_eq. destruct (urlopen _ _ _) as [[data|e] o]; cbn; [|done].
  rewrite invoke_eq. cbn.
  destruct (pd_read_csv _ _ _) as [[df|e] o']; cbn; rewrite <- app_assoc; cbn;
    [done|]. by destruct (is_Exception e).
Qed.

(** C2.  When the bytes were fetched and [pd.read_csv] raises an exception (an
    instance of [Exception], which is what the handler names), [to_pandas]
    raises a [ValueError] instead, whose message has the URL in it and whose
    cause is the exception [pd.read_csv] raised. *)
Theorem to_pandas_wraps_parse_failure url rk kw w data o e o' :
  urlopen url (default ∅ rk) (outside w) = (Returns data, o) →
  pd_read_csv data kw o = (Raises e, o') →
  is_Exception e = true →
  ∃ err w',
    to_pandas url rk kw w = (Raises err, w')
    ∧ exn_cls err = ValueError
    ∧ exn_msg err = read_csv_message url
    ∧ mentions (exn_msg err) url
    ∧ exn_cause err = Some e.
Proof.
  intros Hfetch Hparse Hexc.
  eexists (Exn ValueError (read_csv_message url) (Some e)), _.
  rewrite to_pandas_cases. cbv zeta. rewrite Hfetch, Hparse, Hexc.
  repeat split. apply read_csv_message_mentions.
Qed.

(** X5.  The handler names [Exception]: what derives from [BaseException]
    only (an interrupt from the keyboard, an exit request) during parsing goes
    through as it is. *)
Lemma to_pandas_passes_non_Exception url rk kw w data o e o' :
  urlopen url (default ∅ rk) (outside w) = (Returns data, o) →
  pd_read_csv data kw o = (Raises e, o') →
  is_Exception e = false →
  (to_pandas url rk kw w).1 = Raises e.
Proof.
  intros Hfetch Hparse Hexc.
  rewrite to_pandas_cases. cbv zeta. by rewrite Hfetch, Hparse, Hexc.
Qed.

(** C7.  When [urlopen] raises, [to_pandas] raises that very exception,
    whatever its class: the fetch is outside the [try], [pd.read_csv] is not
    reached and nothing is wrapped.  The log has the fetch and nothing else. *)
Theorem to_pandas_transport_failure_propagates url rk kw w e o :
  urlopen url (default ∅ rk) (outside w) = (Raises e, o) →
  to_pandas url rk kw w =
    (Raises e,
     {| outside := o; files := files w;
        log := log w ++ [call_urlopen url (default ∅ rk)] |}).
Proof. intros Hfetch. rewrite to_pandas_cases. cbv zeta. by rewrite Hfetch. Qed.

(** *** [to_xarray] *)

Lemma to_xarray_opendap url rk kw w :
  to_xarray url "opendap" rk kw w =
    invoke (call_open_dataset (inl url) (delete "auth" kw))
           (xr_open_dataset (inl url) (delete "auth" kw)) w.
Proof. reflexivity. Qed.

Lemma to_xarray_other url response rk kw w :
  response ≠ "opendap" →
  to_xarray url response rk kw w =
    (let auth := default PyNone (kw !! "auth") in
     let kw' := delete "auth" kw in
     let rk' := default ∅ rk in
     let* nc := (let* _ := keyword_with_dict "_nc_dataset" "auth" rk' in
                 invoke (call_nc_dataset url auth rk') (_nc_dataset url auth rk')) in
     let* store := invoke (call_NetCDF4DataStore nc) (xr_NetCDF4DataStore nc) in
     invoke (call_open_dataset (inr store) kw')
            (xr_open_dataset (inr store) kw')) w.
Proof. intros H. unfold to_xarray. cbn. by rewrite decide_False. Qed.

(** In a mode other than the default, with fetch options that do not repeat
    the [auth] keyword, the first thing [to_xarray] does is call [_nc_dataset]
    with the URL, the [auth] taken out of [kw], and the fetch options. *)
Lemma to_xarray_other_first_call url response rk kw w :
  response ≠ "opendap" →
  default ∅ rk !! "auth" = None →
  ∃ evs, emits (to_xarray url response rk kw) w
           (call_nc_dataset url (default PyNone (kw !! "auth")) (default ∅ rk) :: evs).
Proof.
  intros Hmode Hkey. unfold emits. rewrite to_xarray_other by done. cbv zeta.
  unfold bind, keyword_with_dict. rewrite Hkey. cbn. rewrite invoke_eq.
  destruct (_nc_dataset _ _ _ _) as [[nc|e] o]; cbn; [|by exists []].
  rewrite invoke_eq. cbn.
  destruct (xr_NetCDF4DataStore _ _) as [[st|e] o1]; cbn.
  - rewrite invoke_eq. cbn. eexists. by rewrite <- !app_assoc.
  - eexists. by rewrite <- !app_assoc.
Qed.

(** What [to_xarray] does in the fetching modes, case by case. *)
Lemma to_xarray_fetch_cases url response rk kw w :
  response ≠ "opendap" →
  default ∅ rk !! "auth" = None →
  to_xarray url response rk kw w =
    let auth := default PyNone (kw !! "auth") in
    let kw' := delete "auth" kw in
    let rk' := default ∅ rk in
    match _nc_dataset url auth rk' (outside w) with
    | (Raises e, o1) =>
        (Raises e,
         {| outside := o1; files := files w;
            log := log w ++ [call_nc_dataset url auth rk'] |})
    | (Returns nc, o1) =>
        match xr_NetCDF4DataStore nc o1 with
        | (Raises e, o2) =>
            (Raises e,
             {| outside := o2; files := files w;
                log := log w ++ [call_nc_dataset url auth rk';
                                 call_NetCDF4DataStore nc] |})
        | (Returns store, o2) =>
            ((xr_open_dataset (inr store) kw' o2).1,
             {| outside := (xr_open_dataset (inr store) kw' o2).2;
                files := files w;
                log := log w ++ [call_nc_dataset url auth rk';
                                 call_NetCDF4DataStore nc;
                                 call_open_dataset (inr store) kw'] |})
        end
    end.
Proof.
  intros Hmode Hkey. rewrite to_xarray_other by done. cbv zeta.
  unfold bind, keyword_with_dict. rewrite Hkey. cbn. rewrite invoke_eq.
  destruct (_nc_dataset _ _ _ _) as [[nc|e] o1]; cbn; [|done].
  rewrite invoke_eq. cbn.
  destruct (xr_NetCDF4DataStore _ _) as [[st|e] o2]; cbn.
  - rewrite invoke_eq. cbn. by rewrite <- !app_assoc.
  - by rewrite <- !app_assoc.
Qed.

(** C4.  In the default response mode [to_xarray] makes one call, to
    [xr.open_dataset] on the URL itself; neither [urlopen] nor [_nc_dataset]
    is called. *)
Theorem to_xarray_opendap_no_fetch url rk kw w :
  let kw' := delete "auth" kw in
  to_xarray url "opendap" rk kw w =
    ((xr_open_dataset (inl url) kw' (outside w)).1,
     {| outside := (xr_open_dataset (inl url) kw' (outside w)).2;
        files := files w;
        log := log w ++ [call_open_dataset (inl url) kw'] |})
  ∧ ∃ evs, emits (to_xarray url "opendap" rk kw) w evs
           ∧ Forall (λ ev, is_fetch ev = false) evs.
Proof.
  cbv zeta. unfold emits. rewrite to_xarray_opendap, invoke_eq.
  split; [done|]. eexists. split; [reflexivity|]. by constructor.
Qed.

(** C9.  Leaving [requests_kwargs] out (it is then [None]) and passing an
    empty dictionary are the same call: same collaborator calls, same
    outcome, same world.  For [to_xarray] this holds in every response mode,
    the ones other than the default among them. *)
Theorem requests_kwargs_None_is_empty url kw w :
  to_pandas url None kw w = to_pandas url (Some ∅) kw w
  ∧ to_iris url None kw w = to_iris url (Some ∅) kw w
  ∧ ∀ response,
      to_xarray url response None kw w = to_xarray url response (Some ∅) kw w.
Proof. repeat split. Qed.

(** C5 (amended).  It is in the default response mode that [to_xarray]
    ignores [requests_kwargs]: any two values give the same outcome and the
    same world.  In every other mode the option is used: its entries, when
    they do not repeat the [auth] keyword, are the keyword options of the
    [_nc_dataset] call, which is the first call made, and the run goes on
    from what that call gives. *)
Theorem to_xarray_requests_kwargs_by_mode url kw w :
  (∀ rk1 rk2, to_xarray url "opendap" rk1 kw w = to_xarray url "opendap" rk2 kw w)
  ∧ (∀ response rk,
       response ≠ "opendap" →
       default ∅ rk !! "auth" = None →
       (∃ evs, emits (to_xarray url response rk kw) w
                 (call_nc_dataset url (default PyNone (kw !! "auth"))
                    (default ∅ rk) :: evs))
       ∧ to_xarray url response rk kw w =
           let auth := default PyNone (kw !! "auth") in
           let kw' := delete "auth" kw in
           match _nc_dataset url auth (default ∅ rk) (outside w) with
           | (Raises e, o1) =>
               (Raises e,
                {| outside := o1; files := files w;
                   log := log w ++ [call_nc_dataset url auth (default ∅ rk)] |})
           | (Returns nc, o1) =>
               match xr_NetCDF4DataStore nc o1 with
               | (Raises e, o2) =>
                   (Raises e,
                    {| outside := o2; files := files w;
                       log := log w ++ [call_nc_dataset url auth (default ∅ rk);
                                        call_NetCDF4DataStore nc] |})
               | (Returns store, o2) =>
                   ((xr_open_dataset (inr store) kw' o2).1,
                    {| outside := (xr_open_dataset (inr store) kw' o2).2;
                       files := files w;
                       log := log w ++ [call_nc_dataset url auth (default ∅ rk);
                                        call_NetCDF4DataStore nc;
                                        call_open_dataset (inr store) kw'] |})
               end
           end).
Proof.
  split.
  - intros rk1 rk2. by rewrite !to_xarray_opendap.
  - intros response rk Hmode Hkey.
    split; [by apply to_xarray_other_first_call|].
    by rewrite to_xarray_fetch_cases.
Qed.

(** C6 (amended).  [to_ncCF], when the protocol is not ["griddap"], and
    [to_xarray], in every response mode other than the default and with fetch
    options that have no [auth] entry of their own, pass the [auth] option
    ([None] when there is none) to [_nc_dataset]: that call, on that value,
    is the one whose outcome the run continues from.  In the default mode
    [to_xarray] takes [auth] out of the options and makes one call,
    [xr.open_dataset] on the URL with what is left: the credentials go to no
    collaborator, and whatever they are the run is the same. *)
Theorem auth_forwarding_by_mode url kw w :
  let auth := default PyNone (kw !! "auth") in
  (∀ protocol,
     protocol ≠ Some "griddap" →
     emits (to_ncCF url protocol kw) w [call_nc_dataset url auth (delete "auth" kw)]
     ∧ to_ncCF url protocol kw w =
         ((_nc_dataset url auth (delete "auth" kw) (outside w)).1,
          {| outside := (_nc_dataset url auth (delete "auth" kw) (outside w)).2;
             files := files w;
             log := log w ++ [call_nc_dataset url auth (delete "auth" kw)] |}))
  ∧ (∀ response rk,
       response ≠ "opendap" →
       default ∅ rk !! "auth" = None →
       (∃ evs, emits (to_xarray url response rk kw) w
                 (call_nc_dataset url auth (default ∅ rk) :: evs))
       ∧ to_xarray url response rk kw w =
           let kw' := delete "auth" kw in
           match _nc_dataset url auth (default ∅ rk) (outside w) with
           | (Raises e, o1) =>
               (Raises e,
                {| outside := o1; files := files w;
                   log := log w ++ [call_nc_dataset url auth (default ∅ rk)] |})
           | (Returns nc, o1) =>
               match xr_NetCDF4DataStore nc o1 with
               | (Raises e, o2) =>
                   (Raises e,
                    {| outside := o2; files := files w;
                       log := log w ++ [call_nc_dataset url auth (default ∅ rk);
                                        call_NetCDF4DataStore nc] |})
               | (Returns store, o2) =>
                   ((xr_open_dataset (inr store) kw' o2).1,
                    {| outside := (xr_open_dataset (inr store) kw' o2).2;
                       files := files w;
                       log := log w ++ [call_nc_dataset url auth (default ∅ rk);
                                        call_NetCDF4DataStore nc;
                                        call_open_dataset (inr store) kw'] |})
               end
           end)
  ∧ (∀ rk,
       (emits (to_xarray url "opendap" rk kw) w
          [call_open_dataset (inl url) (delete "auth" kw)]
        ∧ delete "auth" kw !! "auth" = None)
       ∧ to_xarray url "opendap" rk kw w =
           ((xr_open_dataset (inl url) (delete "auth" kw) (outside w)).1,
            {| outside := (xr_open_dataset (inl url) (delete "auth" kw) (outside w)).2;
               files := files w;
               log := log w ++ [call_open_dataset (inl url) (delete "auth" kw)] |})
       ∧ ∀ credentials,
           to_xarray url "opendap" rk (<["auth" := credentials]> kw) w
             = to_xarray url "opendap" rk (delete "auth" kw) w).
Proof.
  cbv zeta. split; [|split].
  - intros protocol Hp. split.
    + unfold emits. by rewrite to_ncCF_other, invoke_eq.
    + by rewrite to_ncCF_other, invoke_eq.
  - intros response rk Hmode Hkey.
    split; [by apply to_xarray_other_first_call|].
    by rewrite to_xarray_fetch_cases.
  - intros rk. split; [split|split].
    + unfold emits. by rewrite to_xarray_opendap, invoke_eq.
    + apply lookup_delete_eq.
    + by rewrite to_xarray_opendap, invoke_eq.
    + intros credentials. rewrite !to_xarray_opendap.
      by rewrite delete_insert_eq, delete_delete_eq.
Qed.

(** *** What a computation may add to the log *)

Lemma emits_only_ret P {A} (a : A) : emits_only P (ret a).
Proof. intros w. exists []. unfold emits. cbn. by rewrite app_nil_r. Qed.

Lemma emits_only_raise P {A} e : emits_only P (raise (A:=A) e).
Proof. intros w. exists []. unfold emits. cbn. by rewrite app_nil_r. Qed.

Lemma emits_only_invoke P {A} (ev : event) (f : ext → outcome A * ext) :
  P ev → emits_only P (invoke ev f).
Proof.
  intros HP w. exists [ev]. unfold emits. rewrite invoke_eq.
  split; [done | by constructor].
Qed.

Lemma emits_only_invoke_reading P {A} (ev : event)
    (f : gmap string BinaryIO → ext → outcome A * ext) :
  P ev → emits_only P (invoke_reading ev f).
Proof. intros HP w. unfold invoke_reading. by apply emits_only_invoke. Qed.

Lemma emits_only_bind P {A B} (m : M A) (k : A → M B) :
  emits_only P m → (∀ a, emits_only P (k a)) → emits_only P (bind m k).
Proof.
  intros Hm Hk w. destruct (Hm w) as (evs1 & H1 & F1).
  unfold emits, bind in *. destruct (m w) as [[a|e] w1]; cbn in *.
  - destruct (Hk a w1) as (evs2 & H2 & F2). exists (evs1 ++ evs2).
    unfold emits in H2. rewrite H2, H1, app_assoc.
    split; [done | by apply Forall_app].
  - by exists evs1.
Qed.

Lemma emits_only_try P {A} (body : M A) (handler : exn → M A) :
  emits_only P body → (∀ e, emits_only P (handler e)) →
  emits_only P (try_except_Exception body handler).
Proof.
  intros Hm Hk w. destruct (Hm w) as (evs1 & H1 & F1).
  unfold emits, try_except_Exception in *.
  destruct (body w) as [[a|e] w1]; cbn in *; [by exists evs1|].
  destruct (is_Exception e); [|by exists evs1].
  destruct (Hk e w1) as (evs2 & H2 & F2). exists (evs1 ++ evs2).
  unfold emits in H2. rewrite H2, H1, app_assoc.
  split; [done | by apply Forall_app].
Qed.

Lemma emits_only_with_tempnc P {B} (data : BinaryIO) (body : string → M B) :
  (∀ p, P (tempnc_created p)) → (∀ p, P (tempnc_deleted p)) →
  (∀ tmp, emits_only P (body tmp)) →
  emits_only P (with_as (_tempnc data) body).
Proof.
  intros Hc Hd Hb w. unfold emits, with_as. cbn.
  set (tmp := fresh (dom (files w))). set (w1 := World _ _ _).
  destruct (Hb tmp w1) as (evs & H & F). unfold emits in H.
  destruct (body tmp w1) as [r w2]; cbn in *.
  exists ([tempnc_created tmp] ++ evs ++ [tempnc_deleted tmp]).
  rewrite H, <- !app_assoc. split; [done|].
  apply Forall_app; split; [by constructor|].
  apply Forall_app; split; [done | by constructor].
Qed.

Lemma emits_only_keyword_with_dict P fname key (d : gmap string pyval) :
  emits_only P (keyword_with_dict fname key d).
Proof.
  unfold keyword_with_dict.
  destruct (d !! key); [apply emits_only_raise | apply emits_only_ret].
Qed.

Lemma emits_only_materialize P (cubes : list Cube) :
  (∀ c, P (read_cube_data c)) → emits_only P (materialize cubes).
Proof.
  intros HP. induction cubes as [|c rest IH]; cbn.
  - apply emits_only_ret.
  - apply emits_only_bind; [by apply emits_only_invoke_reading|].
    intros d. apply emits_only_bind; [done|]. intros ds. apply emits_only_ret.
Qed.

Create HintDb emits discriminated.
#[local] Hint Resolve emits_only_ret emits_only_raise emits_only_invoke
  emits_only_invoke_reading emits_only_bind emits_only_try
  emits_only_with_tempnc emits_only_keyword_with_dict
  emits_only_materialize : emits.

(** The log names no URL but the caller's, and the two messages the module
    writes have it between fixed texts. *)
Lemma logged_urls_are_the_callers url :
  (∀ rk kw, emits_only (only_url url) (to_pandas url rk kw))
  ∧ (∀ protocol kw, emits_only (only_url url) (to_ncCF url protocol kw))
  ∧ (∀ response rk kw, emits_only (only_url url) (to_xarray url response rk kw))
  ∧ (∀ rk kw, emits_only (only_url url) (to_iris url rk kw))
  ∧ (∀ kw w,
       (to_ncCF url (Some "griddap") kw w).1 =
         Raises (Exn ValueError
                   ("Cannot use .ncCF with griddap protocol. The URL you tried to access is: '"
                      +:+ url +:+ "'.") None))
  ∧ (∀ rk kw w data o e o',
       urlopen url (default ∅ rk) (outside w) = (Returns data, o) →
       pd_read_csv data kw o = (Raises e, o') →
       is_Exception e = true →
       (to_pandas url rk kw w).1 =
         Raises (Exn ValueError
                   ("Could not read url " +:+ url +:+ " with Pandas.read_csv.")
                   (Some e))).
Proof.
  repeat apply conj.
  - intros rk kw. unfold to_pandas. cbv zeta.
    apply emits_only_bind; [by apply emits_only_invoke|].
    intros data. apply emits_only_try; auto with emits.
    by apply emits_only_invoke.
  - intros protocol kw. unfold to_ncCF.
    destruct (decide _); [apply emits_only_raise|].
    cbn. by apply emits_only_invoke.
  - intros response rk kw. unfold to_xarray. cbn.
    destruct (decide _); [by apply emits_only_invoke|].
    apply emits_only_bind.
    + apply emits_only_bind; [apply emits_only_keyword_with_dict|].
      intros _. by apply emits_only_invoke.
    + intros nc. apply emits_only_bind; [by apply emits_only_invoke|].
      intros store. by apply emits_only_invoke.
  - intros rk kw. unfold to_iris. cbv zeta.
    apply emits_only_bind; [by apply emits_only_invoke|].
    intros data. apply emits_only_with_tempnc; [done..|].
    intros tmp. apply emits_only_bind; [by apply emits_only_invoke_reading|].
    intros cubes. apply emits_only_bind; [by apply emits_only_materialize|].
    intros _. apply emits_only_ret.
  - done.
  - intros rk kw w data o e o' Hfetch Hparse Hexc.
    rewrite to_pandas_cases. cbv zeta. by rewrite Hfetch, Hparse, Hexc.
Qed.

(** *** [to_iris] *)

(** The block under the [with]. *)
Local Abbreviation iris_block kw tmp :=
  (let* cubes := invoke_reading (call_load_raw tmp kw)
                                (λ fs, iris_load_raw fs tmp kw) in
   let* _ := materialize cubes in
   ret cubes).

Lemma created_paths_app (evs1 evs2 : list event) :
  created_paths (evs1 ++ evs2) = created_paths evs1 ++ created_paths evs2.
Proof. apply omap_app. Qed.

Lemma created_paths_reads (cubes : list Cube) :
  created_paths (read_cube_data <$> cubes) = [].
Proof. induction cubes; [done|]. cbn. apply IHcubes. Qed.

(** Reading the cubes leaves the files alone and logs one read per cube, up
    to the first read that raises. *)
Lemma materialize_trace (cubes : list Cube) w :
  files (materialize cubes w).2 = files w
  ∧ ∃ n, log (materialize cubes w).2 = log w ++ (read_cube_data <$> take n cubes).
Proof.
  revert w. induction cubes as [|c rest IH]; intros w; cbn.
  - split; [done|]. exists 0. by rewrite app_nil_r.
  - unfold bind, invoke_reading. rewrite invoke_eq.
    destruct (cube_data _ _ _) as [[d|e] o]; cbn.
    + set (w1 := World _ _ _). destruct (IH w1) as (Hf & n & Hl).
      destruct (materialize rest w1) as [[ds|e] w2]; cbn in *;
        (split; [done|]); exists (S n); by rewrite Hl, <- app_assoc.
    + split; [done|]. by exists 1.
Qed.


Lemma iris_block_trace kw tmp w :
  files (iris_block kw tmp w).2 = files w
  ∧ ∃ reads : list Cube,
      log (iris_block kw tmp w).2 =
        log w ++ call_load_raw tmp kw :: (read_cube_data <$> reads).
Proof.
  unfold bind, invoke_reading. rewrite invoke_eq.
  destruct (iris_load_raw _ _ _ _) as [[cubes|e] o]; cbn.
  - set (w1 := World _ _ _). destruct (materialize_trace cubes w1) as (Hf & n & Hl).
    destruct (materialize cubes w1) as [[ds|e] w2]; cbn in *;
      (split; [done|]); exists (take n cubes); rewrite Hl; subst w1; cbn;
      by rewrite <- app_assoc.
  - split; [done|]. by exists [].
Qed.

Lemma iris_block_returns kw tmp w cubes w' :
  iris_block kw tmp w = (Returns cubes, w') →
  ∃ o payloads,
    iris_load_raw (files w) tmp kw (outside w) = (Returns cubes, o)
    ∧ materialize cubes
        {| outside := o; files := files w; log := log w ++ [call_load_raw tmp kw] |}
      = (Returns payloads, w').
Proof.
  unfold bind, invoke_reading. rewrite invoke_eq.
  destruct (iris_load_raw _ _ _ _) as [[cs|e] o]; cbn; [|done].
  set (w1 := World _ _ _).
  destruct (materialize cs w1) as [[ds|e] w2] eqn:Hm; cbn; [|done].
  intros [= <- <-]. by exists o, ds.
Qed.

(** What [to_iris] does around the block. *)
Lemma to_iris_cases url rk kw w :
  to_iris url rk kw w =
    let rk' := default ∅ rk in
    match urlopen url rk' (outside w) with
    | (Raises e, o) =>
        (Raises e,
         {| outside := o; files := files w;
            log := log w ++ [call_urlopen url rk'] |})
    | (Returns data, o) =>
        let tmp := fresh (dom (files w)) in
        let r := iris_block kw tmp
                   {| outside := o;
                      files := <[tmp := data]> (files w);
                      log := log w ++ [call_urlopen url rk'; tempnc_created tmp] |} in
        (r.1, release (_tempnc data) tmp r.2)
    end.
Proof.
  unfold to_iris. cbv zeta. unfold bind at 1. rewrite invoke_eq.
  destruct (urlopen _ _ _) as [[data|e] o]; cbn; [|done].
  unfold with_as. cbn. rewrite <- app_assoc. cbn.
  by destruct (bind _ _ _).
Qed.

Lemma fresh_path_unused (fs : gmap string BinaryIO) : fs !! fresh (dom fs) = None.
Proof. apply not_elem_of_dom, is_fresh. Qed.

(** C3.  After [to_iris], however it ends, the files are the files there were
    before the call.  The log of the call names the temporary files it
    created (one when the fetch returned, none when it raised) and none of
    them is a file any more. *)
Theorem to_iris_removes_tempfile url rk kw w :
  let w' := (to_iris url rk kw w).2 in
  files w' = files w
  ∧ ∃ evs,
      log w' = log w ++ evs
      ∧ created_paths evs =
          match (urlopen url (default ∅ rk) (outside w)).1 with
          | Returns _ => [fresh (dom (files w))]
          | Raises _ => []
          end
      ∧ Forall (λ p, files w' !! p = None) (created_paths evs).
Proof.
  cbv zeta. rewrite to_iris_cases. cbv zeta.
  destruct (urlopen _ _ _) as [[data|e] o]; cbn.
  - set (tmp := fresh (dom (files w))). set (w1 := World _ _ _).
    destruct (iris_block_trace kw tmp w1) as (Hf & reads & Hl).
    rewrite Hf, Hl. cbn.
    assert (Hgone : delete tmp (<[tmp := data]> (files w)) = files w).
    { apply delete_insert_id, fresh_path_unused. }
    split; [done|].
    exists ([call_urlopen url (default ∅ rk); tempnc_created tmp;
             call_load_raw tmp kw]
            ++ (read_cube_data <$> reads) ++ [tempnc_deleted tmp]).
    assert (Hc : created_paths
                   ([call_urlopen url (default ∅ rk); tempnc_created tmp;
                     call_load_raw tmp kw]
                    ++ (read_cube_data <$> reads) ++ [tempnc_deleted tmp]) = [tmp]).
    { by rewrite !created_paths_app, created_paths_reads. }
    rewrite Hc. repeat split.
    + by rewrite <- !app_assoc.
    + constructor; [|done]. apply lookup_delete_eq.
  - split; [done|]. by exists [call_urlopen url (default ∅ rk)].
Qed.


(** What [to_ncCF] does, case by case. *)
Lemma to_ncCF_cases url (protocol : option string) kw w :
  to_ncCF url protocol kw w =
    if decide (protocol = Some "griddap") then
      (Raises (Exn ValueError (griddap_message url) None), w)
    else
      let auth := default PyNone (kw !! "auth") in
      let kw' := delete "auth" kw in
      ((_nc_dataset url auth kw' (outside w)).1,
       {| outside := (_nc_dataset url auth kw' (outside w)).2;
          files := files w;
          log := log w ++ [call_nc_dataset url auth kw'] |}).
Proof.
  destruct (decide (protocol = Some "griddap")) as [->|Hp].
  - apply to_ncCF_griddap.
  - by rewrite to_ncCF_other, invoke_eq.
Qed.

(** What [to_xarray] does, case by case. *)
Lemma to_xarray_cases url response rk kw w :
  to_xarray url response rk kw w =
    let auth := default PyNone (kw !! "auth") in
    let kw' := delete "auth" kw in
    let rk' := default ∅ rk in
    if decide (response = "opendap") then
      ((xr_open_dataset (inl url) kw' (outside w)).1,
       {| outside := (xr_open_dataset (inl url) kw' (outside w)).2;
          files := files w;
          log := log w ++ [call_open_dataset (inl url) kw'] |})
    else
      match rk' !! "auth" with
      | Some _ =>
          (Raises (Exn TypeError
                     "_nc_dataset() got multiple values for keyword argument 'auth'"
                     None), w)
      | None =>
          match _nc_dataset url auth rk' (outside w) with
          | (Raises e, o1) =>
              (Raises e,
               {| outside := o1; files := files w;
                  log := log w ++ [call_nc_dataset url auth rk'] |})
          | (Returns nc, o1) =>
              match xr_NetCDF4DataStore nc o1 with
              | (Raises e, o2) =>
                  (Raises e,
                   {| outside := o2; files := files w;
                      log := log w ++ [call_nc_dataset url auth rk';
                                       call_NetCDF4DataStore nc] |})
              | (Returns store, o2) =>
                  ((xr_open_dataset (inr store) kw' o2).1,
                   {| outside := (xr_open_dataset (inr store) kw' o2).2;
                      files := files w;
                      log := log w ++ [call_nc_dataset url auth rk';
                                       call_NetCDF4DataStore nc;
                                       call_open_dataset (inr store) kw'] |})
              end
          end
      end.
Proof.
  cbv zeta. destruct (decide (response = "opendap")) as [->|Hmode].
  - by rewrite to_xarray_opendap, invoke_eq.
  - destruct (default ∅ rk !! "auth") as [v|] eqn:Hkey.
    + rewrite to_xarray_other by done. cbv zeta.
      unfold bind, keyword_with_dict. by rewrite Hkey.
    + by rewrite to_xarray_fetch_cases.
Qed.

(** C10.  The URL is not rewritten.  Each of the four functions is, for every
    input and world, the run written out below, in which every collaborator
    that takes a URL ([urlopen], [_nc_dataset], [xr.open_dataset] on a URL) is
    applied to the caller's [url] itself and the two messages the module
    writes (the rejection of griddap, the parse failure) have that same [url]
    between fixed texts.  The log, accordingly, names no other URL. *)
Theorem url_passed_verbatim url :
  (∀ rk kw w,
     to_pandas url rk kw w =
       match urlopen url (default ∅ rk) (outside w) with
       | (Raises e, o) =>
           (Raises e,
            {| outside := o; files := files w;
               log := log w ++ [call_urlopen url (default ∅ rk)] |})
       | (Returns data, o) =>
           let w' o' :=
             {| outside := o'; files := files w;
                log := log w ++ [call_urlopen url (default ∅ rk);
                                 call_read_csv data kw] |} in
           match pd_read_csv data kw o with
           | (Returns df, o') => (Returns df, w' o')
           | (Raises e, o') =>
               if is_Exception e
               then (Raises (Exn ValueError
                               ("Could not read url " +:+ url
                                  +:+ " with Pandas.read_csv.") (Some e)),
                     w' o')
               else (Raises e, w' o')
           end
       end)
  ∧ (∀ protocol kw w,
       to_ncCF url protocol kw w =
         if decide (protocol = Some "griddap") then
           (Raises (Exn ValueError
                      ("Cannot use .ncCF with griddap protocol. The URL you tried to access is: '"
                         +:+ url +:+ "'.") None), w)
         else
           let auth := default PyNone (kw !! "auth") in
           let kw' := delete "auth" kw in
           ((_nc_dataset url auth kw' (outside w)).1,
            {| outside := (_nc_dataset url auth kw' (outside w)).2;
               files := files w;
               log := log w ++ [call_nc_dataset url auth kw'] |}))
  ∧ (∀ response rk kw w,
       to_xarray url response rk kw w =
         let auth := default PyNone (kw !! "auth") in
         let kw' := delete "auth" kw in
         let rk' := default ∅ rk in
         if decide (response = "opendap") then
           ((xr_open_dataset (inl url) kw' (outside w)).1,
            {| outside := (xr_open_dataset (inl url) kw' (outside w)).2;
               files := files w;
               log := log w ++ [call_open_dataset (inl url) kw'] |})
         else
           match rk' !! "auth" with
           | Some _ =>
               (Raises (Exn TypeError
                          "_nc_dataset() got multiple values for keyword argument 'auth'"
                          None), w)
           | None =>
               match _nc_dataset url auth rk' (outside w) with
               | (Raises e, o1) =>
                   (Raises e,
                    {| outside := o1; files := files w;
                       log := log w ++ [call_nc_dataset url auth rk'] |})
               | (Returns nc, o1) =>
                   match xr_NetCDF4DataStore nc o1 with
                   | (Raises e, o2) =>
                       (Raises e,
                        {| outside := o2; files := files w;
                           log := log w ++ [call_nc_dataset url auth rk';
                                            call_NetCDF4DataStore nc] |})
                   | (Returns store, o2) =>
                       ((xr_open_dataset (inr store) kw' o2).1,
                        {| outside := (xr_open_dataset (inr store) kw' o2).2;
                           files := files w;
                           log := log w ++ [call_nc_dataset url auth rk';
                                            call_NetCDF4DataStore nc;
                                            call_open_dataset (inr store) kw'] |})
                   end
               end
           end)
  ∧ (∀ rk kw w,
       to_iris url rk kw w =
         match urlopen url (default ∅ rk) (outside w) with
         | (Raises e, o) =>
             (Raises e,
              {| outside := o; files := files w;
                 log := log w ++ [call_urlopen url (default ∅ rk)] |})
         | (Returns data, o) =>
             let tmp := fresh (dom (files w)) in
             let r :=
               (let* cubes := invoke_reading (call_load_raw tmp kw)
                                             (λ fs, iris_load_raw fs tmp kw) in
                let* _ := materialize cubes in
                ret cubes)
                 {| outside := o;
                    files := <[tmp := data]> (files w);
                    log := log w ++ [call_urlopen url (default ∅ rk);
                                     tempnc_created tmp] |} in
             (r.1, release (_tempnc data) tmp r.2)
         end)
  ∧ (∀ rk kw, emits_only (only_url url) (to_pandas url rk kw))
  ∧ (∀ protocol kw, emits_only (only_url url) (to_ncCF url protocol kw))
  ∧ (∀ response rk kw, emits_only (only_url url) (to_xarray url response rk kw))
  ∧ (∀ rk kw, emits_only (only_url url) (to_iris url rk kw))
  ∧ (∀ kw w,
       (to_ncCF url (Some "griddap") kw w).1 =
         Raises (Exn ValueError
                   ("Cannot use .ncCF with griddap protocol. The URL you tried to access is: '"
                      +:+ url +:+ "'.") None))
  ∧ (∀ rk kw w data o e o',
       urlopen url (default ∅ rk) (outside w) = (Returns data, o) →
       pd_read_csv data kw o = (Raises e, o') →
       is_Exception e = true →
       (to_pandas url rk kw w).1 =
         Raises (Exn ValueError
                   ("Could not read url " +:+ url +:+ " with Pandas.read_csv.")
                   (Some e))).
Proof.
  split; [|split; [|split; [|split]]].
  - intros rk kw w. apply to_pandas_cases.
  - intros protocol kw w. apply to_ncCF_cases.
  - intros response rk kw w. apply to_xarray_cases.
  - intros rk kw w. apply to_iris_cases.
  - apply logged_urls_are_the_callers.
Qed.

End Properties.

(** ** The properties at the small instance *)

Lemma to_ncCF_rejects_griddap_only_witness :
  to_ncCF (L:=demo) demo_url (Some "griddap") ∅ demo_world =
    (Raises (Exn ValueError (griddap_message demo_url) None), demo_world)
  ∧ (None ≠ Some "griddap"
     ∧ to_ncCF (L:=demo) demo_url None ∅ demo_world =
         (Returns (demo_url, PyNone),
          @World demo 1%nat ∅ [call_nc_dataset demo_url PyNone ∅])).
Proof.
  split.
  - apply (proj1 (to_ncCF_rejects_griddap_only (L:=demo) demo_url
                    (Some "griddap") ∅ demo_world)).
    reflexivity.
  - split; [discriminate|].
    exact (proj2 (to_ncCF_rejects_griddap_only (L:=demo) demo_url None ∅
                    demo_world) ltac:(discriminate)).
Defined.

Lemma to_pandas_wraps_parse_failure_witness :
  ∃ err w',
    to_pandas (L:=demo) "http://erddap/empty.csv" None ∅ demo_world
      = (Raises err, w')
    ∧ exn_cls err = ValueError
    ∧ exn_msg err = read_csv_message "http://erddap/empty.csv"
    ∧ mentions (exn_msg err) "http://erddap/empty.csv"
    ∧ exn_cause err =
        Some (Exn (LibraryError "EmptyDataError")
                  "No columns to parse from file" None).
Proof.
  apply (to_pandas_wraps_parse_failure (L:=demo) "http://erddap/empty.csv"
           None ∅ demo_world [] 1%nat _ 1%nat); reflexivity.
Defined.

Lemma to_pandas_transport_failure_propagates_witness :
  to_pandas (L:=demo) "" None ∅ demo_world =
    (Raises (Exn OSError "unreachable" None),
     @World demo 0%nat ∅ [call_urlopen "" ∅]).
Proof.
  apply (to_pandas_transport_failure_propagates (L:=demo) "" None ∅ demo_world).
  reflexivity.
Defined.


Lemma to_xarray_requests_kwargs_by_mode_witness :
  to_xarray (L:=demo) demo_url "opendap" None ∅ demo_world
    = to_xarray (L:=demo) demo_url "opendap"
        (Some {[ "timeout" := PyInt 0 ]}) ∅ demo_world
  ∧ "nc" ≠ "opendap"
  ∧ ({[ "timeout" := PyInt 0 ]} : gmap string pyval) !! "auth" = None
  ∧ (∃ evs, emits (to_xarray (L:=demo) demo_url "nc"
                     (Some {[ "timeout" := PyInt 0 ]}) ∅) demo_world
              (call_nc_dataset demo_url PyNone {[ "timeout" := PyInt 0 ]} :: evs))
  ∧ to_xarray (L:=demo) demo_url "nc" (Some {[ "timeout" := PyInt 0 ]}) ∅
      demo_world
    = (Raises (Exn OSError "timed out" None),
       @World demo 1%nat ∅
         [call_nc_dataset demo_url PyNone {[ "timeout" := PyInt 0 ]}]).
Proof.
  split.
  - apply (proj1 (to_xarray_requests_kwargs_by_mode (L:=demo) demo_url ∅
                    demo_world)).
  - split; [discriminate|]. split; [reflexivity|].
    exact (proj2 (to_xarray_requests_kwargs_by_mode (L:=demo) demo_url ∅
                    demo_world)
             "nc" (Some {[ "timeout" := PyInt 0 ]})
             ltac:(discriminate) ltac:(reflexivity)).
Defined.

Lemma auth_forwarding_by_mode_witness :
  to_ncCF (L:=demo) demo_url None {[ "auth" := demo_auth ]} demo_world
    = (Returns demo_nc,
       @World demo 1%nat ∅ [call_nc_dataset demo_url demo_auth ∅])
  ∧ to_xarray (L:=demo) demo_url "nc" None {[ "auth" := demo_auth ]} demo_world
    = (Returns (inr demo_store),
       @World demo 1%nat ∅
         [call_nc_dataset demo_url demo_auth ∅;
          call_NetCDF4DataStore demo_nc;
          call_open_dataset (inr demo_store) ∅])
  ∧ to_xarray (L:=demo) demo_url "opendap" None {[ "auth" := demo_auth ]}
      demo_world
    = (Returns (inl demo_url),
       @World demo 0%nat ∅ [call_open_dataset (inl demo_url) ∅])
  ∧ to_xarray (L:=demo) demo_url "opendap" None
      (<["auth" := demo_auth]> ∅) demo_world
    = to_xarray (L:=demo) demo_url "opendap" None (delete "auth" ∅) demo_world.
Proof.
  pose proof (auth_forwarding_by_mode (L:=demo) demo_url
                {[ "auth" := demo_auth ]} demo_world) as (Hnc & Hx & _).
  pose proof (auth_forwarding_by_mode (L:=demo) demo_url ∅ demo_world)
    as (_ & _ & Hod').
  pose proof (auth_forwarding_by_mode (L:=demo) demo_url
                {[ "auth" := demo_auth ]} demo_world) as (_ & _ & Hod).
  split; [|split; [|split]].
  - exact (proj2 (Hnc None ltac:(discriminate))).
  - exact (proj2 (Hx "nc" None ltac:(discriminate) ltac:(reflexivity))).
  - exact (proj1 (proj2 (Hod None))).
  - exact (proj2 (proj2 (Hod' None)) demo_auth).
Defined.

Lemma url_passed_verbatim_witness :
  to_pandas (L:=demo) demo_url None ∅ demo_world
    = (Returns demo_frame,
       @World demo 1%nat ∅
         [call_urlopen demo_url ∅; call_read_csv demo_body ∅])
  ∧ to_ncCF (L:=demo) demo_url None ∅ demo_world
    = (Returns demo_open_nc,
       @World demo 1%nat ∅ [call_nc_dataset demo_url PyNone ∅])
  ∧ to_xarray (L:=demo) demo_url "opendap" None ∅ demo_world
    = (Returns (inl demo_url),
       @World demo 0%nat ∅ [call_open_dataset (inl demo_url) ∅])
  ∧ to_xarray (L:=demo) demo_url "nc" None ∅ demo_world
    = (Returns (inr demo_open_store),
       @World demo 1%nat ∅
         [call_nc_dataset demo_url PyNone ∅;
          call_NetCDF4DataStore demo_open_nc;
          call_open_dataset (inr demo_open_store) ∅])
  ∧ to_iris (L:=demo) "" None ∅ demo_world
    = (Raises (Exn OSError "unreachable" None),
       @World demo 0%nat ∅ [call_urlopen "" ∅])
  ∧ (to_ncCF (L:=demo) demo_url (Some "griddap") ∅ demo_world).1
    = Raises (Exn ValueError
                "Cannot use .ncCF with griddap protocol. The URL you tried to access is: 'http://erddap/tabledap/x.nc'."
                None)
  ∧ (to_pandas (L:=demo) "http://erddap/empty.csv" None ∅ demo_world).1
    = Raises (Exn ValueError
                "Could not read url http://erddap/empty.csv with Pandas.read_csv."
                (Some (Exn (LibraryError "EmptyDataError")
                           "No columns to parse from file" None))).
Proof.
  pose proof (url_passed_verbatim (L:=demo) demo_url)
    as (Hpd & Hnc & Hxr & _ & _ & _ & _ & _ & Hmsg & _).
  pose proof (url_passed_verbatim (L:=demo) "")
    as (_ & _ & _ & Hiris & _).
  pose proof (url_passed_verbatim (L:=demo) "http://erddap/empty.csv")
    as (_ & _ & _ & _ & _ & _ & _ & _ & _ & Hwrap).
  split; [|split; [|split; [|split; [|split; [|split]]]]].
  - exact (Hpd None ∅ demo_world).
  - exact (Hnc None ∅ demo_world).
  - exact (Hxr "opendap" None ∅ demo_world).
  - exact (Hxr "nc" None ∅ demo_world).
  - exact (Hiris None ∅ demo_world).
  - exact (Hmsg ∅ demo_world).
  - exact (Hwrap None ∅ demo_world [] 1%nat _ 1%nat
             ltac:(reflexivity) ltac:(reflexivity) ltac:(reflexivity)).
Defined.

(** C5, as it was stated, fails.  In the mode ["nc"] the fetch options reach
    [_nc_dataset]: with none the dataset is opened, with a timeout of zero the
    fetch times out. *)
Lemma to_xarray_nc_depends_on_requests_kwargs :
  "nc" ≠ "opendap"
  ∧ (to_xarray (L:=demo) demo_url "nc" (Some ∅) ∅ demo_world).1
      = Returns (inr (demo_url, PyNone))
  ∧ (to_xarray (L:=demo) demo_url "nc" (Some {[ "timeout" := PyInt 0 ]}) ∅
       demo_world).1
      = Raises (Exn OSError "timed out" None)
  ∧ ¬ (∀ (L : Libraries) url response rk1 rk2 kw (w : world),
         response ≠ "opendap" →
         to_xarray url response rk1 kw w = to_xarray url response rk2 kw w).
Proof.
  split; [discriminate|]. split; [reflexivity|]. split; [reflexivity|].
  intros H.
  specialize (H demo demo_url "nc" (Some ∅) (Some {[ "timeout" := PyInt 0 ]})
                ∅ demo_world ltac:(discriminate)).
  apply (f_equal fst) in H. vm_compute in H. discriminate H.
Qed.

(** C6, as it was stated, fails.  In the default mode the credentials given
    as [auth] are taken out of the options and go nowhere: the one call made
    is [xr.open_dataset] on the URL with no options left, and [_nc_dataset]
    is not called with them. *)
Lemma to_xarray_opendap_drops_auth :
  log (to_xarray (L:=demo) demo_url "opendap" None {[ "auth" := demo_auth ]}
         demo_world).2
    = [call_open_dataset (inl demo_url) ∅]
  ∧ (¬ ∃ u k,
         call_nc_dataset u demo_auth k
           ∈ log (to_xarray (L:=demo) demo_url "opendap" None
                    {[ "auth" := demo_auth ]} demo_world).2)
  ∧ to_xarray (L:=demo) demo_url "opendap" None {[ "auth" := demo_auth ]}
      demo_world
    = (Returns (inl demo_url),
       @World demo 0%nat ∅ [call_open_dataset (inl demo_url) ∅])
  ∧ to_xarray (L:=demo) demo_url "opendap" None {[ "auth" := demo_auth ]}
      demo_world
    = to_xarray (L:=demo) demo_url "opendap" None ∅ demo_world.
Proof.
  assert (Hlog : log (to_xarray (L:=demo) demo_url "opendap" None
                        {[ "auth" := demo_auth ]} demo_world).2
                 = [call_open_dataset (inl demo_url) ∅]) by reflexivity.
  split; [exact Hlog|]. split; [|split; reflexivity].
  intros (u & k & Hin). rewrite Hlog in Hin.
  apply list_elem_of_singleton in Hin. discriminate Hin.
Qed.

(** ** Further properties *)

Section Further.
Context {L : Libraries}.

Implicit Types (url response path : string) (kw : gmap string pyval).
Implicit Types (rk : option (gmap string pyval)) (w : world) (e : exn).

(** *** [to_xarray], the fetching modes *)

(** X1.  In a mode other than the default, fetch options that have an [auth]
    entry of their own repeat the keyword [to_xarray] passes explicitly: the
    call is refused with a [TypeError] before any collaborator is called, and
    the world is left as it was. *)
Theorem to_xarray_repeated_auth_keyword url response rk kw w :
  response ≠ "opendap" →
  is_Some (default ∅ rk !! "auth") →
  ∃ err,
    to_xarray url response rk kw w = (Raises err, w)
    ∧ exn_cls err = TypeError.
Proof.
  intros Hmode [v Hv]. rewrite to_xarray_other by done. cbv zeta.
  unfold bind, keyword_with_dict. rewrite Hv. cbn. by eexists.
Qed.

(** X2.  In a mode other than the default, when the dataset is fetched and
    wrapped as a data store, [to_xarray] makes three calls in this order:
    [_nc_dataset] with the URL, [auth] and the fetch options;
    [NetCDF4DataStore] on the dataset; [xr.open_dataset] on the store with
    the library options less [auth].  Its outcome is that of the last call. *)
Theorem to_xarray_fetch_pipeline url response rk kw w nc o1 store o2 :
  response ≠ "opendap" →
  default ∅ rk !! "auth" = None →
  _nc_dataset url (default PyNone (kw !! "auth")) (default ∅ rk) (outside w)
    = (Returns nc, o1) →
  xr_NetCDF4DataStore nc o1 = (Returns store, o2) →
  to_xarray url response rk kw w =
    ((xr_open_dataset (inr store) (delete "auth" kw) o2).1,
     {| outside := (xr_open_dataset (inr store) (delete "auth" kw) o2).2;
        files := files w;
        log := log w ++ [call_nc_dataset url (default PyNone (kw !! "auth"))
                           (default ∅ rk);
                         call_NetCDF4DataStore nc;
                         call_open_dataset (inr store) (delete "auth" kw)] |}).
Proof.
  intros Hmode Hkey Hnc Hstore. rewrite to_xarray_fetch_cases by done.
  cbv zeta. by rewrite Hnc, Hstore.
Qed.

(** X3.  In a mode other than the default nothing is wrapped and nothing is
    retried.  When [_nc_dataset] raises, [to_xarray] raises that exception and
    calls nothing else; when [NetCDF4DataStore] raises, [to_xarray] raises
    that exception and [xr.open_dataset] is not called. *)
Theorem to_xarray_fetch_failures url response rk kw w :
  response ≠ "opendap" →
  default ∅ rk !! "auth" = None →
  let auth := default PyNone (kw !! "auth") in
  let rk' := default ∅ rk in
  (∀ e o1,
     _nc_dataset url auth rk' (outside w) = (Raises e, o1) →
     to_xarray url response rk kw w =
       (Raises e,
        {| outside := o1; files := files w;
           log := log w ++ [call_nc_dataset url auth rk'] |}))
  ∧ (∀ nc o1 e o2,
       _nc_dataset url auth rk' (outside w) = (Returns nc, o1) →
       xr_NetCDF4DataStore nc o1 = (Raises e, o2) →
       to_xarray url response rk kw w =
         (Raises e,
          {| outside := o2; files := files w;
             log := log w ++ [call_nc_dataset url auth rk';
                              call_NetCDF4DataStore nc] |})).
Proof.
  intros Hmode Hkey. cbv zeta. split.
  - intros e o1 Hnc. rewrite to_xarray_fetch_cases by done.
    cbv zeta. by rewrite Hnc.
  - intros nc o1 e o2 Hnc Hstore. rewrite to_xarray_fetch_cases by done.
    cbv zeta. by rewrite Hnc, Hstore.
Qed.

(** *** [to_pandas] *)

(** X4.  When the fetch and the parse both return, [to_pandas] returns the
    frame [pd.read_csv] made of the very bytes [urlopen] returned, with the
    library options as given (an [auth] among them is not taken out), after
    exactly these two calls. *)
Theorem to_pandas_returns_parse url rk kw w data o df o' :
  urlopen url (default ∅ rk) (outside w) = (Returns data, o) →
  pd_read_csv data kw o = (Returns df, o') →
  to_pandas url rk kw w =
    (Returns df,
     {| outside := o'; files := files w;
        log := log w ++ [call_urlopen url (default ∅ rk);
                         call_read_csv data kw] |}).
Proof.
  intros Hfetch Hparse. rewrite to_pandas_cases. cbv zeta.
  by rewrite Hfetch, Hparse.
Qed.

(** X6.  Where an exception out of [to_pandas] comes from: it is the one
    [urlopen] raised; or one that [pd.read_csv] raised and that is not an
    instance of [Exception]; or the [ValueError] with the URL in its message,
    caused by an instance of [Exception] that [pd.read_csv] raised.  No
    instance of [Exception] raised by the parsing comes out unwrapped. *)
Theorem to_pandas_error_provenance url rk kw w err :
  (to_pandas url rk kw w).1 = Raises err →
  (∃ o, urlopen url (default ∅ rk) (outside w) = (Raises err, o))
  ∨ (∃ data o o',
       urlopen url (default ∅ rk) (outside w) = (Returns data, o)
       ∧ pd_read_csv data kw o = (Raises err, o')
       ∧ is_Exception err = false)
  ∨ (∃ data o e o',
       urlopen url (default ∅ rk) (outside w) = (Returns data, o)
       ∧ pd_read_csv data kw o = (Raises e, o')
       ∧ is_Exception e = true
       ∧ err = Exn ValueError (read_csv_message url) (Some e)).
Proof.
  rewrite to_pandas_cases. cbv zeta.
  destruct (urlopen _ _ _) as [[data|e] o] eqn:Hfetch; cbn.
  - destruct (pd_read_csv _ _ _) as [[df|e] o'] eqn:Hparse; cbn; [done|].
    destruct (is_Exception e) eqn:Hexc; cbn; intros [= <-].
    + right; right. by exists data, o, e, o'.
    + right; left. by exists data, o, o'.
  - intros [= <-]. left. by exists o.
Qed.

(** *** [to_iris] *)

(** X7.  When [urlopen] raises, [to_iris] raises that very exception; no
    temporary file is made and nothing is loaded: the log has the fetch and
    nothing else. *)
Theorem to_iris_transport_failure url rk kw w e o :
  urlopen url (default ∅ rk) (outside w) = (Raises e, o) →
  to_iris url rk kw w =
    (Raises e,
     {| outside := o; files := files w;
        log := log w ++ [call_urlopen url (default ∅ rk)] |}).
Proof. intros Hfetch. rewrite to_iris_cases. cbv zeta. by rewrite Hfetch. Qed.

(** X8.  When [iris.load_raw] raises on the temporary file, [to_iris] raises
    that very exception, no cube is read, and the temporary file is removed on
    the way out: the files are those there were before the call. *)
Theorem to_iris_load_failure url rk kw w data o e o' :
  urlopen url (default ∅ rk) (outside w) = (Returns data, o) →
  iris_load_raw (<[fresh (dom (files w)) := data]> (files w))
                (fresh (dom (files w))) kw o = (Raises e, o') →
  to_iris url rk kw w =
    (Raises e,
     {| outside := o'; files := files w;
        log := log w ++ [call_urlopen url (default ∅ rk);
                         tempnc_created (fresh (dom (files w)));
                         call_load_raw (fresh (dom (files w))) kw;
                         tempnc_deleted (fresh (dom (files w)))] |}).
Proof.
  intros Hfetch Hload. rewrite to_iris_cases. cbv zeta. rewrite Hfetch.
  unfold bind, invoke_reading. rewrite invoke_eq. cbn. rewrite Hload. cbn.
  rewrite delete_insert_id by apply fresh_path_unused.
  by rewrite <- !app_assoc.
Qed.

(** X9.  The data of the cubes is read in order and the reading stops at the
    first cube whose data cannot be read: the exception of that read is the
    outcome, the cubes after it are not read, and the files are untouched. *)
Theorem materialize_stops_at_first_failure
    (before after : list Cube) (c : Cube) w payloads w1 e o :
  materialize before w = (Returns payloads, w1) →
  cube_data (files w1) c (outside w1) = (Raises e, o) →
  materialize (before ++ c :: after) w =
    (Raises e,
     {| outside := o; files := files w;
        log := log w ++ (read_cube_data <$> before) ++ [read_cube_data c] |}).
Proof.
  revert w payloads. induction before as [|b bs IH]; intros w payloads; cbn.
  - intros [= <- <-] Hfail. unfold bind, invoke_reading.
    rewrite invoke_eq, Hfail. done.
  - unfold bind at 1, invoke_reading. rewrite invoke_eq.
    destruct (cube_data _ b _) as [[d|e'] ob] eqn:Hb; cbn; [|done].
    set (wb := World _ _ _). unfold bind at 1.
    destruct (materialize bs wb) as [[ds|e'] w2] eqn:Hbs; cbn; [|done].
    intros [= <- <-] Hfail. unfold bind at 1, invoke_reading.
    rewrite invoke_eq, Hb. cbn. fold wb. unfold bind at 1.
    rewrite (IH wb ds Hbs Hfail). subst wb. cbn. by rewrite <- app_assoc.
Qed.

Lemma materialize_raises (cubes : list Cube) w e w' :
  materialize cubes w = (Raises e, w') →
  ∃ c o o', c ∈ cubes ∧ cube_data (files w) c o = (Raises e, o').
Proof.
  revert w. induction cubes as [|c rest IH]; intros w; cbn; [done|].
  unfold bind at 1, invoke_reading. rewrite invoke_eq.
  destruct (cube_data _ c _) as [[d|e'] oc] eqn:Hc; cbn.
  - set (wc := World _ _ _). unfold bind at 1.
    destruct (materialize rest wc) as [[ds|e'] w2] eqn:Hrest; cbn; [done|].
    intros [= <- <-]. destruct (IH _ Hrest) as (c' & o & o' & Hin & Hraise).
    exists c', o, o'. split; [by right | exact Hraise].
  - intros [= <- <-]. exists c, (outside w), oc. split; [by left | exact Hc].
Qed.

(** X10.  [to_iris] raises nothing of its own and wraps nothing: an exception
    that comes out of it was raised by [urlopen], or by [iris.load_raw] on the
    temporary file holding the fetched bytes, or by the [data] of one of the
    loaded cubes, read while that file was on disk. *)
Theorem to_iris_error_provenance url rk kw w e :
  (to_iris url rk kw w).1 = Raises e →
  (∃ o, urlopen url (default ∅ rk) (outside w) = (Raises e, o))
  ∨ (∃ data o,
       urlopen url (default ∅ rk) (outside w) = (Returns data, o)
       ∧ let tmp := fresh (dom (files w)) in
         let fs := <[tmp := data]> (files w) in
         (∃ o', iris_load_raw fs tmp kw o = (Raises e, o'))
         ∨ (∃ cubes o1 c o2 o3,
              iris_load_raw fs tmp kw o = (Returns cubes, o1)
              ∧ c ∈ cubes
              ∧ cube_data fs c o2 = (Raises e, o3))).
Proof.
  rewrite to_iris_cases. cbv zeta.
  destruct (urlopen _ _ _) as [[data|e'] o] eqn:Hfetch; cbn.
  - intros Hraise. right. exists data, o. split; [done|].
    revert Hraise. unfold bind at 1, invoke_reading. rewrite invoke_eq. cbn.
    destruct (iris_load_raw _ _ _ _) as [[cubes|e'] o1] eqn:Hload; cbn.
    + set (w1 := World _ _ _). unfold bind at 1.
      destruct (materialize cubes w1) as [[ds|e'] w2] eqn:Hm; cbn; [done|].
      intros [= <-]. right.
      destruct (materialize_raises _ _ _ _ Hm) as (c & o2 & o3 & Hin & Hc).
      by exists cubes, o1, c, o2, o3.
    + intros [= <-]. left. by exists o1.
  - intros [= <-]. left. by exists o.
Qed.

(** X11.  The cubes [to_iris] returns are the ones [iris.load_raw] gave when
    called on the temporary path, with the library options as given, while
    the file at that path held exactly the bytes [urlopen] had returned. *)
Theorem to_iris_loads_fetched_bytes url rk kw w cubes w' :
  to_iris url rk kw w = (Returns cubes, w') →
  ∃ data o o',
    urlopen url (default ∅ rk) (outside w) = (Returns data, o)
    ∧ iris_load_raw (<[fresh (dom (files w)) := data]> (files w))
                    (fresh (dom (files w))) kw o = (Returns cubes, o').
Proof.
  rewrite to_iris_cases. cbv zeta.
  destruct (urlopen _ _ _) as [[data|e] o]; [|done].
  set (tmp := fresh (dom (files w))). set (w0 := World _ _ _).
  destruct (bind _ _ w0) as [r w2] eqn:Hblock. cbn. intros [= -> <-].
  destruct (iris_block_returns _ _ _ _ _ Hblock) as (o1 & ps & Hload & _).
  by exists data, o, o1.
Qed.

(** *** Fetches *)

Lemma materialize_runs_no_fetch (cubes : list (@Cube (counting L)))
    (w : @world (counting L)) :
  fetches_run (materialize (L:=counting L) cubes w).2 = fetches_run w.
Proof.
  revert w. induction cubes as [|c rest IH]; intros w; cbn; [done|].
  destruct (@cube_data L (files w) c (outside w).1) as [[d|e] o]; cbn; [|done].
  set (w1 := World _ _ _). unfold bind. specialize (IH w1).
  destruct (materialize rest w1) as [[ds|e] w2]; cbn in *; by rewrite IH.
Qed.

(** X13.  No function fetches twice and none retries.  With [urlopen] and
    [_nc_dataset] counting their own runs, whatever else they do: [to_pandas]
    and [to_iris] fetch exactly once on every path; [to_ncCF] does not fetch
    under ["griddap"] and fetches exactly once otherwise; [to_xarray] does not
    fetch in the default mode, nor when the fetch options repeat the [auth]
    keyword, and fetches exactly once otherwise. *)
Theorem one_fetch_per_call url rk kw (w : @world (counting L)) :
  fetches_run (to_pandas (L:=counting L) url rk kw w).2 = S (fetches_run w)
  ∧ (∀ protocol : option string,
       fetches_run (to_ncCF (L:=counting L) url protocol kw w).2 =
         if decide (protocol = Some "griddap") then fetches_run w
         else S (fetches_run w))
  ∧ (∀ response,
       fetches_run (to_xarray (L:=counting L) url response rk kw w).2 =
         if decide (response = "opendap") then fetches_run w
         else match default ∅ rk !! "auth" with
              | Some _ => fetches_run w
              | None => S (fetches_run w)
              end)
  ∧ fetches_run (to_iris (L:=counting L) url rk kw w).2 = S (fetches_run w).
Proof.
  split; [|split; [|split]].
  - rewrite to_pandas_cases. cbv zeta. unfold fetches_run. cbn.
    destruct (@urlopen L url (default ∅ rk) (outside w).1) as [[data|e] o];
      cbn; [|done].
    destruct (@pd_read_csv L data kw o) as [[df|e] o']; cbn; [done|].
    by destruct (is_Exception e).
  - intros protocol. rewrite to_ncCF_cases.
    by destruct (decide _).
  - intros response. rewrite to_xarray_cases. cbv zeta.
    destruct (decide _); [done|].
    destruct (default ∅ rk !! "auth"); [done|]. unfold fetches_run. cbn.
    destruct (@_nc_dataset L url (default PyNone (kw !! "auth")) (default ∅ rk)
                (outside w).1) as [[nc|e] o]; cbn; [|done].
    by destruct (@xr_NetCDF4DataStore L nc o) as [[st|e] o'].
  - rewrite to_iris_cases. cbv zeta. unfold fetches_run. cbn.
    destruct (@urlopen L url (default ∅ rk) (outside w).1) as [[data|e] o];
      cbn; [|done].
    destruct (@iris_load_raw L
                (<[fresh (dom (files w)) := data]> (files w))
                (fresh (dom (files w))) kw o) as [[cubes|e] o1]; cbn; [|done].
    set (w1 := World _ _ _). unfold bind.
    pose proof (materialize_runs_no_fetch cubes w1) as Hm.
    unfold fetches_run in Hm.
    destruct (materialize (L:=counting L) cubes w1) as [[ds|e] w2];
      cbn in *; by rewrite Hm.
Qed.

(** *** The [auth] option *)

(** X14.  Passing [auth=None] is the same as passing no [auth]: [to_ncCF]
    and [to_xarray] behave the same on library options that have [auth] set
    to [None] and on those options with the entry left out. *)
Theorem explicit_auth_None_is_omitted url kw w :
  (∀ protocol,
     to_ncCF url protocol (<["auth" := PyNone]> kw) w
       = to_ncCF url protocol (delete "auth" kw) w)
  ∧ (∀ response rk,
       to_xarray url response rk (<["auth" := PyNone]> kw) w
         = to_xarray url response rk (delete "auth" kw) w).
Proof.
  split.
  - intros protocol. unfold to_ncCF, pop_default_None.
    by rewrite lookup_insert_eq, lookup_delete_eq, delete_insert_eq,
      delete_delete_eq.
  - intros response rk. unfold to_xarray, pop_default_None.
    by rewrite lookup_insert_eq, lookup_delete_eq, delete_insert_eq,
      delete_delete_eq.
Qed.

End Further.

(** ** The further properties at the instances *)

Lemma to_xarray_repeated_auth_keyword_witness :
  ∃ err,
    to_xarray (L:=demo) demo_url "nc" (Some {[ "auth" := demo_auth ]}) ∅
      demo_world = (Raises err, demo_world)
    ∧ exn_cls err = TypeError.
Proof.
  apply (to_xarray_repeated_auth_keyword (L:=demo));
    [discriminate | by eexists].
Defined.

Lemma to_xarray_fetch_pipeline_witness :
  to_xarray (L:=demo) demo_url "nc" None {[ "auth" := demo_auth ]} demo_world =
    (Returns (inr demo_store),
     @World demo 1%nat ∅
       [call_nc_dataset demo_url demo_auth ∅;
        call_NetCDF4DataStore demo_nc;
        call_open_dataset (inr demo_store) ∅]).
Proof.
  exact (to_xarray_fetch_pipeline (L:=demo) demo_url "nc" None
           {[ "auth" := demo_auth ]} demo_world demo_nc 1%nat demo_store 1%nat
           ltac:(discriminate) ltac:(reflexivity) ltac:(reflexivity)
           ltac:(reflexivity)).
Defined.

Lemma to_xarray_fetch_failures_witness :
  to_xarray (L:=faulty fetch_refused) demo_url "nc" None ∅
      (faulty_world fetch_refused)
    = (Raises (Exn OSError "connection refused" None),
       @World (faulty fetch_refused) 1%nat ∅
         [call_nc_dataset demo_url PyNone ∅])
  ∧ to_xarray (L:=faulty store_rejected) demo_url "nc" None ∅
        (faulty_world store_rejected)
      = (Raises (Exn ValueError "not a netCDF4 dataset" None),
         @World (faulty store_rejected) 1%nat ∅
           [call_nc_dataset demo_url PyNone ∅;
            call_NetCDF4DataStore (faulty_nc store_rejected)]).
Proof.
  split.
  - exact (proj1 (to_xarray_fetch_failures (L:=faulty fetch_refused) demo_url
                    "nc" None ∅ (faulty_world fetch_refused)
                    ltac:(discriminate) ltac:(reflexivity))
             _ _ ltac:(reflexivity)).
  - exact (proj2 (to_xarray_fetch_failures (L:=faulty store_rejected) demo_url
                    "nc" None ∅ (faulty_world store_rejected)
                    ltac:(discriminate) ltac:(reflexivity))
             (faulty_nc store_rejected) 1%nat _ 1%nat
             ltac:(reflexivity) ltac:(reflexivity)).
Defined.

Lemma to_pandas_returns_parse_witness :
  to_pandas (L:=demo) demo_url None {[ "auth" := demo_auth ]} demo_world =
    (Returns demo_frame,
     @World demo 1%nat ∅
       [call_urlopen demo_url ∅;
        call_read_csv demo_body {[ "auth" := demo_auth ]}]).
Proof.
  exact (to_pandas_returns_parse (L:=demo) demo_url None
           {[ "auth" := demo_auth ]} demo_world demo_body 1%nat demo_frame
           1%nat ltac:(reflexivity) ltac:(reflexivity)).
Defined.

Lemma to_pandas_passes_non_Exception_witness :
  (to_pandas (L:=faulty parse_interrupted) demo_url None ∅
     (faulty_world parse_interrupted)).1
    = Raises (Exn KeyboardInterrupt "" None).
Proof.
  exact (to_pandas_passes_non_Exception (L:=faulty parse_interrupted) demo_url
           None ∅ (faulty_world parse_interrupted) demo_body 1%nat _ 1%nat
           ltac:(reflexivity) ltac:(reflexivity) ltac:(reflexivity)).
Defined.

Lemma to_pandas_error_provenance_witness :
  (to_pandas (L:=demo) "http://erddap/empty.csv" None ∅ demo_world).1
    = Raises (Exn ValueError (read_csv_message "http://erddap/empty.csv")
                (Some (Exn (LibraryError "EmptyDataError")
                           "No columns to parse from file" None)))
  ∧ ((∃ o, @urlopen demo "http://erddap/empty.csv" ∅ 0%nat
             = (Raises (Exn ValueError
                          (read_csv_message "http://erddap/empty.csv")
                          (Some (Exn (LibraryError "EmptyDataError")
                                     "No columns to parse from file" None))), o))
     ∨ (∃ data o o',
          @urlopen demo "http://erddap/empty.csv" ∅ 0%nat = (Returns data, o)
          ∧ @pd_read_csv demo data ∅ o
            = (Raises (Exn ValueError
                         (read_csv_message "http://erddap/empty.csv")
                         (Some (Exn (LibraryError "EmptyDataError")
                                    "No columns to parse from file" None))), o')
          ∧ is_Exception
              (Exn ValueError (read_csv_message "http://erddap/empty.csv")
                 (Some (Exn (LibraryError "EmptyDataError")
                            "No columns to parse from file" None))) = false)
     ∨ (∃ data o e o',
          @urlopen demo "http://erddap/empty.csv" ∅ 0%nat = (Returns data, o)
          ∧ @pd_read_csv demo data ∅ o = (Raises e, o')
          ∧ is_Exception e = true
          ∧ Exn ValueError (read_csv_message "http://erddap/empty.csv")
              (Some (Exn (LibraryError "EmptyDataError")
                         "No columns to parse from file" None))
            = Exn ValueError (read_csv_message "http://erddap/empty.csv")
                (Some e))).
Proof.
  split; [reflexivity|].
  exact (to_pandas_error_provenance (L:=demo) "http://erddap/empty.csv" None ∅
           demo_world _ ltac:(reflexivity)).
Defined.

Lemma to_iris_transport_failure_witness :
  to_iris (L:=demo) "" None ∅ demo_world =
    (Raises (Exn OSError "unreachable" None),
     @World demo 0%nat ∅ [call_urlopen "" ∅]).
Proof.
  exact (to_iris_transport_failure (L:=demo) "" None ∅ demo_world _ _
           ltac:(reflexivity)).
Defined.

Lemma to_iris_load_failure_witness :
  to_iris (L:=faulty load_failed) demo_url None ∅ (faulty_world load_failed) =
    (Raises (Exn (LibraryError "TranslationError") "no cubes" None),
     @World (faulty load_failed) 1%nat ∅
       [call_urlopen demo_url ∅; tempnc_created "0"; call_load_raw "0" ∅;
        tempnc_deleted "0"]).
Proof.
  exact (to_iris_load_failure (L:=faulty load_failed) demo_url None ∅
           (faulty_world load_failed) demo_body 1%nat _ 1%nat
           ltac:(reflexivity) ltac:(reflexivity)).
Defined.

Lemma materialize_stops_at_first_failure_witness :
  materialize (L:=faulty read_truncated)
      [faulty_cube read_truncated demo_body; faulty_cube read_truncated [];
       faulty_cube read_truncated demo_body]
      (faulty_world read_truncated)
    = (Raises (Exn OSError "truncated file" None),
       @World (faulty read_truncated) 0%nat ∅
         [read_cube_data (faulty_cube read_truncated demo_body);
          read_cube_data (faulty_cube read_truncated [])]).
Proof.
  exact (materialize_stops_at_first_failure (L:=faulty read_truncated)
           [faulty_cube read_truncated demo_body]
           [faulty_cube read_truncated demo_body]
           (faulty_cube read_truncated [])
           (faulty_world read_truncated) [3%nat]
           (@World (faulty read_truncated) 0%nat ∅
              [read_cube_data (faulty_cube read_truncated demo_body)])
           _ 0%nat ltac:(reflexivity) ltac:(reflexivity)).
Defined.

Lemma to_iris_error_provenance_witness :
  (to_iris (L:=faulty read_truncated) demo_url None ∅
     (faulty_world read_truncated)).1
    = Raises (Exn OSError "truncated file" None)
  ∧ ∃ data o,
      @urlopen (faulty read_truncated) demo_url ∅ 0%nat = (Returns data, o)
      ∧ ∃ cubes o1 c o2 o3,
          @iris_load_raw (faulty read_truncated)
            (<[fresh (dom (∅ : gmap string BinaryIO)) := data]> ∅)
            (fresh (dom (∅ : gmap string BinaryIO))) ∅ o
            = (Returns cubes, o1)
          ∧ c ∈ cubes
          ∧ @cube_data (faulty read_truncated)
              (<[fresh (dom (∅ : gmap string BinaryIO)) := data]> ∅) c o2
            = (Raises (Exn OSError "truncated file" None), o3).
Proof.
  split; [vm_compute; reflexivity|].
  destruct (to_iris_error_provenance (L:=faulty read_truncated) demo_url None
              ∅ (faulty_world read_truncated)
              (Exn OSError "truncated file" None)
              ltac:(vm_compute; reflexivity))
    as [[o Hfetch] | (data & o & Hfetch & [[o' Hload] | Hread])].
  - discriminate Hfetch.
  - exfalso. injection Hfetch as <- <-. vm_compute in Hload.
    discriminate Hload.
  - exists data, o. split; [exact Hfetch | exact Hread].
Defined.

Lemma to_iris_loads_fetched_bytes_witness :
  ∃ data o o',
    @urlopen demo demo_url ∅ 0%nat = (Returns data, o)
    ∧ @iris_load_raw demo
        (<[fresh (dom (∅ : gmap string BinaryIO)) := data]> ∅)
        (fresh (dom (∅ : gmap string BinaryIO))) ∅ o
      = (Returns [demo_cube; demo_cube], o').
Proof.
  apply (to_iris_loads_fetched_bytes (L:=demo) demo_url None ∅ demo_world
           [demo_cube; demo_cube]
           (@World demo 1%nat ∅
              [call_urlopen demo_url ∅; tempnc_created "0";
               call_load_raw "0" ∅; read_cube_data demo_cube;
               read_cube_data demo_cube; tempnc_deleted "0"])).
  vm_compute. reflexivity.
Defined.
